(** * polyglot-detect: the multi-engine language detection aggregator

    A shallow embedding of [src/main.py]: the three engine adapters
    ([detect_language_fasttext], [detect_language_gcld3],
    [detect_language_langdetect]), the aggregator [detect_language] and the
    markdown report it renders.

    The three engines (fastText's [predict], gcld3's [FindLanguage] and
    langdetect's [detect]) are third-party libraries; they enter the model as
    the fields of a record [Engines], so every statement below is about the
    adapters' own code, for whatever the engines answer. *)

From Stdlib Require Import ZArith List String Ascii Bool Lia.
From Stdlib Require Import SpecFloat DecimalString.
Import ListNotations.

Open Scope string_scope.
Open Scope Z_scope.

(** ** Exceptions and results

    A Python call either returns a value or raises.  Every exception the
    engines and the adapters' own indexing raise derives from [Exception],
    which is what the adapters' [except Exception] clauses catch. *)

Inductive Exception : Type :=
| IndexError
| ValueError (msg : string)
| TypeError (msg : string)
| EngineError (msg : string).

Inductive result (A : Type) : Type :=
| Ok (a : A)
| Raise (e : Exception).

Arguments Ok {A} a.
Arguments Raise {A} e.

Definition bind {A B : Type} (c : result A) (k : A -> result B) : result B :=
  match c with
  | Ok a => k a
  | Raise e => Raise e
  end.

(** [try: c except Exception as e: h e] *)
Definition try_except {A : Type} (c : result A) (h : Exception -> result A)
  : result A :=
  match c with
  | Ok a => Ok a
  | Raise e => h e
  end.

Notation "x <- c ;; k" := (bind c (fun x => k))
  (at level 61, c at next level, right associativity).
Notation "' p <- c ;; k" := (bind c (fun x => let 'p := x in k))
  (at level 61, p pattern, c at next level, right associativity).

Definition returns {A : Type} (c : result A) : Prop := exists a, c = Ok a.

(** ** Python floats

    A Python [float] is an IEEE 754 binary64 value; [spec_float] is the
    Standard Library's inductive description of those values
    ([S754_finite s m e] is [(-1)^s * m * 2^e]). *)

Definition float : Type := spec_float.

(** The literals of the source, as binary64 values. *)
Definition f0_0 : float := S754_zero false.
Definition f0_5 : float := S754_finite false 4503599627370496 (-53).
Definition f1_0 : float := S754_finite false 4503599627370496 (-52).
(** [0.1] is [0x1.999999999999ap-4]. *)
Definition f0_1 : float := S754_finite false 7205759403792794 (-56).

(** [x >= y] on floats: false as soon as one side is a NaN. *)
Definition float_ge (x y : float) : bool :=
  match SFcompare x y with
  | Some (Gt | Eq) => true
  | _ => false
  end.

Definition float_lt (x y : float) : bool := SFltb x y.
Definition float_le (x y : float) : bool := SFleb x y.

(** [x] lies in the closed interval [[0.0, 1.0]]. *)
Definition in_unit_interval (x : float) : Prop :=
  float_le f0_0 x = true /\ float_le x f1_0 = true.

Definition is_finite (x : float) : bool :=
  match x with
  | S754_zero _ | S754_finite _ _ _ => true
  | S754_infinity _ | S754_nan => false
  end.

(** ** Strings *)

Definition LF : string := String (ascii_of_nat 10) "".

(** [s.replace(old, new)]: the occurrences of [old] are found left to right
    and do not overlap.  [skip] counts the characters of a matched occurrence
    that are still to be dropped. *)
Fixpoint replace_from (old new : string) (skip : nat) (s : string) : string :=
  match s with
  | EmptyString => EmptyString
  | String c s' =>
      match skip with
      | S k => replace_from old new k s'
      | O =>
          if prefix old s
          then new ++ replace_from old new (Nat.pred (String.length old)) s'
          else String c (replace_from old new O s')
      end
  end.

(** With an empty [old], Python puts [new] before every character and at the
    end. *)
Fixpoint intersperse (new s : string) : string :=
  match s with
  | EmptyString => new
  | String c s' => new ++ String c (intersperse new s')
  end.

Definition str_replace (s old new : string) : string :=
  match old with
  | EmptyString => intersperse new s
  | _ => replace_from old new O s
  end.

(** ** Fixed-point formatting: [format(x, ".3f")]

    Python prints the decimal with three fractional digits that is nearest to
    the exact binary value, ties going to the even one. *)

Definition round_half_even (n d : Z) : Z :=
  let q := n / d in
  let r := n mod d in
  match 2 * r ?= d with
  | Lt => q
  | Gt => q + 1
  | Eq => if Z.even q then q else q + 1
  end.

(** The nearest integer to [m * 2^e * 1000]. *)
Definition thousandths (m : positive) (e : Z) : Z :=
  if 0 <=? e then Zpos m * 2 ^ e * 1000
  else round_half_even (Zpos m * 1000) (2 ^ (- e)).

Definition digit (d : Z) : ascii := ascii_of_nat (48 + Z.to_nat d).

Definition decimal (n : Z) : string :=
  NilZero.string_of_uint (N.to_uint (Z.to_N n)).

Definition fraction3 (n : Z) : string :=
  String (digit (n / 100 mod 10))
    (String (digit (n / 10 mod 10))
       (String (digit (n mod 10)) "")).

Definition fixed3 (n : Z) : string :=
  decimal (n / 1000) ++ "." ++ fraction3 n.

Definition sign (s : bool) : string := if s then "-" else "".

Definition format_3f (x : float) : string :=
  match x with
  | S754_nan => "nan"
  | S754_infinity s => sign s ++ "inf"
  | S754_zero s => sign s ++ "0.000"
  | S754_finite s m e => sign s ++ fixed3 (thousandths m e)
  end.

(** [str(b)] for a [bool]. *)
Definition str_bool (b : bool) : string := if b then "True" else "False".

(** [seq[i]] on a tuple, list or array: [IndexError] out of range. *)
Definition getitem {A : Type} (l : list A) (i : nat) : result A :=
  match nth_error l i with
  | Some a => Ok a
  | None => Raise IndexError
  end.

(** ** The engines *)

(** What [_LANG_IDENTIFIER.FindLanguage] returns. *)
Record Gcld3Result : Type := {
  language : string;
  probability : float;
  is_reliable : bool
}.

(** The three engines, loaded once at start-up and read-only afterwards.

    - [predict text k] is [_model.predict(text, k=k)]: the labels and their
      probabilities, or an exception (fastText raises [ValueError] on a text
      that holds a line feed).
    - [FindLanguage text] is [_LANG_IDENTIFIER.FindLanguage(text)].
    - [langdetect_run seed entropy text] is langdetect's detection of [text]
      by a detector made while the factory's seed is [seed]; [entropy] stands
      for what the detector's random generator draws from the operating
      system when it is made, different from call to call. *)
Record Engines : Type := {
  predict : string -> nat -> result (list string * list float);
  FindLanguage : string -> result (option Gcld3Result);
  langdetect_run : option Z -> Z -> string -> result string
}.

(** [DetectorFactory.seed = 0], set once at import time. *)
Definition DetectorFactory_seed : option Z := Some 0.

(** [langdetect.detect(text)] while the factory's seed is [seed]. *)
Definition langdetect_detect_with (seed : option Z) (E : Engines)
    (entropy : Z) (text : string) : result string :=
  langdetect_run E seed entropy text.

Definition langdetect_detect : Engines -> Z -> string -> result string :=
  langdetect_detect_with DetectorFactory_seed.

(** ** The adapters *)

Definition detect_language_langdetect (E : Engines) (entropy : Z)
    (text : string) : result (string * float) :=
  try_except
    (lang <- langdetect_detect E entropy text ;;
     Ok (lang, f0_5))
    (fun e => Ok ("und", f0_0)).

Definition MIN_CONFIDENCE : float := f0_1.

Definition detect_language_fasttext (E : Engines) (text : string)
  : result (string * float * list (string * float)) :=
  try_except
    ('(labels, probs) <- predict E text 3 ;;
     let alternatives :=
       map (fun '(label, prob) => (str_replace label "__label__" "", prob))
           (combine labels probs) in
     p0 <- getitem probs 0 ;;
     if float_ge p0 MIN_CONFIDENCE then
       l0 <- getitem labels 0 ;;
       p0' <- getitem probs 0 ;;
       Ok (str_replace l0 "__label__" "", p0', alternatives)
     else
       Ok ("und", f0_0, alternatives))
    (fun e => Ok ("und", f0_0, [])).

Definition detect_language_gcld3 (E : Engines) (text : string)
  : result (string * float * bool) :=
  result <- FindLanguage E text ;;
  match result with
  | None => Ok ("und", f0_0, false)
  | Some r => Ok (language r, probability r, is_reliable r)
  end.

(** ** The report *)

(** [f"  - {lang}: {conf:.3f}"] *)
Definition alternative_line (alt : string * float) : string :=
  let '(lang, conf) := alt in
  "  - " ++ lang ++ ": " ++ format_3f conf.

(** The f-string of [detect_language]. *)
Definition markdown_result
    (ft_lang : string) (ft_conf : float)
    (ft_alternatives : list (string * float))
    (gcld_lang : string) (gcld_conf : float) (is_reliable : bool)
    (ld_lang : string) (ld_conf : float) : string :=
  "# Language Detection Results" ++ LF ++
  LF ++
  "## FastText" ++ LF ++
  "- **Main prediction**: " ++ ft_lang ++
    " (confidence: " ++ format_3f ft_conf ++ ")" ++ LF ++
  "- **Alternative predictions**:" ++ LF ++
  concat LF (map alternative_line ft_alternatives) ++ LF ++
  LF ++
  "## GCLD3" ++ LF ++
  "- **Language**: " ++ gcld_lang ++ LF ++
  "- **Confidence**: " ++ format_3f gcld_conf ++ LF ++
  "- **Is reliable**: " ++ str_bool is_reliable ++ LF ++
  LF ++
  "## Langdetect" ++ LF ++
  "- **Language**: " ++ ld_lang ++ LF ++
  "- **Confidence**: " ++ format_3f ld_conf ++ LF.

(** ** The aggregator *)

Definition detect_language (E : Engines) (entropy : Z) (text : string)
  : result string :=
  '(ft_lang, ft_conf, ft_alternatives) <- detect_language_fasttext E text ;;
  '(gcld_lang, gcld_conf, is_reliable) <- detect_language_gcld3 E text ;;
  '(ld_lang, ld_conf) <- detect_language_langdetect E entropy text ;;
  Ok (markdown_result ft_lang ft_conf ft_alternatives
        gcld_lang gcld_conf is_reliable ld_lang ld_conf).

(** ** Stub engines

    Engines with canned answers, in the manner of the injection tests: they
    give the statements below concrete instances. *)

(** [0.9], [0.05] and [0.01] as binary64 values. *)
Definition f0_9 : float := S754_finite false 8106479329266893 (-53).
Definition f0_05 : float := S754_finite false 7205759403792794 (-57).
Definition f0_01 : float := S754_finite false 5764607523034235 (-59).
(** [0.99] *)
Definition f0_99 : float := S754_finite false 8917127262193582 (-53).

(** Three healthy engines that all see English. *)
Definition english_engines : Engines := {|
  predict := fun _ _ =>
    Ok (["__label__en"; "__label__de"; "__label__fr"], [f0_9; f0_05; f0_01]);
  FindLanguage := fun _ =>
    Ok (Some {| language := "en"; probability := f0_99; is_reliable := true |});
  langdetect_run := fun _ _ _ => Ok "en"
|}.

(** The same engines, the compact neural one replaced by a stub that always
    raises. *)
Definition gcld3_raises : Engines := {|
  predict := predict english_engines;
  FindLanguage := fun _ => Raise (EngineError "FindLanguage failed");
  langdetect_run := langdetect_run english_engines
|}.

(** Engines that all fail or give up. *)
Definition failing_engines : Engines := {|
  predict := fun _ _ =>
    Raise (ValueError "predict processes one line at a time");
  FindLanguage := fun _ => Ok None;
  langdetect_run := fun _ _ _ => Raise (EngineError "No features in text.")
|}.

(** A subword engine that is unsure: its best guess is below the threshold. *)
Definition unsure_engines : Engines := {|
  predict := fun _ _ =>
    Ok (["__label__en"; "__label__de"; "__label__fr"], [f0_05; f0_05; f0_01]);
  FindLanguage := FindLanguage english_engines;
  langdetect_run := langdetect_run english_engines
|}.

(** [0.2], [0.7] and [1.0000100135803223] (the single-precision value nearest
    to 1.00001, which fastText reports for a prediction it is sure of). *)
Definition f0_2 : float := S754_finite false 7205759403792794 (-55).
Definition f0_7 : float := S754_finite false 6305039478318694 (-53).


(** A subword engine whose pairs come back unranked. *)
Definition unranked_engines : Engines := {|
  predict := fun _ _ => Ok (["__label__en"; "__label__de"], [f0_2; f0_7]);
  FindLanguage := FindLanguage english_engines;
  langdetect_run := langdetect_run english_engines
|}.

(** ** Vocabulary of the statements *)

(** What the subword adapter does to a label. *)
Definition strip_label (label : string) : string :=
  str_replace label "__label__" "".

(** The alternatives the subword adapter builds from the engine's answer. *)
Definition stripped_pairs (labels : list string) (probs : list float)
  : list (string * float) :=
  map (fun '(label, prob) => (strip_label label, prob)) (combine labels probs).

(** Non-increasing: each element is [>=] the next. *)
Fixpoint descending (l : list float) : bool :=
  match l with
  | a :: (b :: _) as t => float_ge a b && descending t
  | _ => true
  end.

(** [needle] occurs in [s]. *)
Definition occurs_in (needle s : string) : Prop :=
  exists before after, s = before ++ needle ++ after.

(** [s] begins with [start]. *)
Definition begins_with (start s : string) : Prop :=
  exists rest, s = start ++ rest.

(** The same, decided: [needle in s]. *)
Fixpoint contains (needle s : string) : bool :=
  prefix needle s ||
  match s with
  | EmptyString => false
  | String _ s' => contains needle s'
  end.

Definition is_LF (c : ascii) : bool := Ascii.eqb c (ascii_of_nat 10).

(** [s] holds no line feed. *)
Fixpoint single_line (s : string) : bool :=
  match s with
  | EmptyString => true
  | String c s' => negb (is_LF c) && single_line s'
  end.

(** The number of lines of [s] that open a section, that is, begin with
    ["## "]; [line_start] tells whether [s] starts at the beginning of a
    line. *)
Fixpoint count_headers (line_start : bool) (s : string) : nat :=
  match s with
  | EmptyString => O
  | String c s' =>
      ((if line_start && prefix "## " s then 1 else 0)
       + count_headers (is_LF c) s')%nat
  end.

Definition section_count (report : string) : nat := count_headers true report.

(** A decimal digit. *)
Definition is_digit (c : ascii) : bool :=
  (48 <=? nat_of_ascii c)%nat && (nat_of_ascii c <=? 57)%nat.

Fixpoint all_digits (s : string) : bool :=
  match s with
  | EmptyString => true
  | String c s' => is_digit c && all_digits s'
  end.

(** [s] is a decimal number written with exactly three fractional digits:
    an optional minus sign, at least one digit, a point, three digits. *)
Definition three_decimals (s : string) : Prop :=
  exists sgn whole d1 d2 d3,
    s = sgn ++ whole ++ "." ++ String d1 (String d2 (String d3 "")) /\
    (sgn = "" \/ sgn = "-") /\
    whole <> "" /\ all_digits whole = true /\
    is_digit d1 = true /\ is_digit d2 = true /\ is_digit d3 = true.

(** The integer [n] is the nearest one to [m * 2^e * 1000]: the decimal
    [n / 1000] is within half a thousandth of [m * 2^e]. *)
Definition nearest_thousandth (n : Z) (m : positive) (e : Z) : Prop :=
  if 0 <=? e then n = Zpos m * 2 ^ e * 1000
  else 2 * Z.abs (n * 2 ^ (- e) - Zpos m * 1000) <= 2 ^ (- e).

(** ** The report's shape, section by section

    The layout of the tool's output as its interface describes it: a title,
    then one section per engine, a blank line before each. *)

Definition report_title : string := "# Language Detection Results" ++ LF.

Definition section_fasttext (lang : string) (conf : float)
    (alternatives : list (string * float)) : string :=
  "## FastText" ++ LF ++
  "- **Main prediction**: " ++ lang ++
    " (confidence: " ++ format_3f conf ++ ")" ++ LF ++
  "- **Alternative predictions**:" ++ LF ++
  concat LF (map alternative_line alternatives) ++ LF.

Definition section_gcld3 (lang : string) (conf : float) (reliable : bool)
  : string :=
  "## GCLD3" ++ LF ++
  "- **Language**: " ++ lang ++ LF ++
  "- **Confidence**: " ++ format_3f conf ++ LF ++
  "- **Is reliable**: " ++ str_bool reliable ++ LF.

Definition section_langdetect (lang : string) (conf : float) : string :=
  "## Langdetect" ++ LF ++
  "- **Language**: " ++ lang ++ LF ++
  "- **Confidence**: " ++ format_3f conf ++ LF.

Definition report_template
    (ft : string * float * list (string * float))
    (gcld : string * float * bool) (ld : string * float) : string :=
  let '(ft_lang, ft_conf, ft_alternatives) := ft in
  let '(gcld_lang, gcld_conf, reliable) := gcld in
  let '(ld_lang, ld_conf) := ld in
  report_title ++ LF ++
  section_fasttext ft_lang ft_conf ft_alternatives ++ LF ++
  section_gcld3 gcld_lang gcld_conf reliable ++ LF ++
  section_langdetect ld_lang ld_conf.

(** ** What the specification says of the engines *)

(** Modelled from the spec: fastText's [predict] is a library call whose
    code is not under src/.  The specification has the subword engine return
    "its top-k (k=3) label/probability pairs", a "ranked output": one
    probability per label, in non-increasing order. *)
Definition ranked_answer (labels : list string) (probs : list float) : Prop :=
  List.length labels = List.length probs /\ descending probs = true.

(** The subword engine keeps to it on [text]. *)
Definition predict_ranked (E : Engines) (text : string) : Prop :=
  forall labels probs,
    predict E text 3 = Ok (labels, probs) -> ranked_answer labels probs.

(** Modelled from the spec: langdetect is a library whose code is not under
    src/.  The specification has the statistical engine "deterministic given
    a fixed pseudo-random seed configured once at process start" and
    "otherwise non-deterministic across runs on the same input": with a seed
    configured, what a run answers depends on the seed and on the text
    only. *)
Definition seeded_runs_deterministic (E : Engines) : Prop :=
  forall (s : Z) (entropy1 entropy2 : Z) (text : string),
    langdetect_run E (Some s) entropy1 text
    = langdetect_run E (Some s) entropy2 text.

(** A statistical engine that keeps to this, and follows the entropy when it
    has no seed. *)
Definition moody_engines : Engines := {|
  predict := predict english_engines;
  FindLanguage := FindLanguage english_engines;
  langdetect_run := fun seed entropy _ =>
    match seed with
    | Some _ => Ok "no"
    | None => if Z.even entropy then Ok "no" else Ok "da"
    end
|}.

(** ** Further vocabulary *)

(** A subword engine that answers with no pair at all. *)
Definition silent_engines : Engines := {|
  predict := fun _ _ => Ok ([], []);
  FindLanguage := FindLanguage english_engines;
  langdetect_run := langdetect_run english_engines
|}.

(** A subword engine with more labels than probabilities. *)
Definition lopsided_engines : Engines := {|
  predict := fun _ _ =>
    Ok (["__label__en"; "__label__de"; "__label__fr"], [f0_9; f0_05]);
  FindLanguage := FindLanguage english_engines;
  langdetect_run := langdetect_run english_engines
|}.

(** [x] is a binary64 value: 53 bits of precision, exponents up to 1024. *)
Definition binary64 (x : float) : Prop := valid_binary 53 1024 x = true.

(** The number of lines of [s] that are item lines, that is, begin with
    ["  - "]. *)
Fixpoint count_items (line_start : bool) (s : string) : nat :=
  match s with
  | EmptyString => O
  | String c s' =>
      ((if line_start && prefix "  - " s then 1 else 0)
       + count_items (is_LF c) s')%nat
  end.

Definition item_count (report : string) : nat := count_items true report.

(** The report of three undetermined answers. *)
Definition undetermined_report : string :=
  "# Language Detection Results" ++ LF ++
  LF ++
  "## FastText" ++ LF ++
  "- **Main prediction**: und (confidence: 0.000)" ++ LF ++
  "- **Alternative predictions**:" ++ LF ++
  LF ++
  LF ++
  "## GCLD3" ++ LF ++
  "- **Language**: und" ++ LF ++
  "- **Confidence**: 0.000" ++ LF ++
  "- **Is reliable**: False" ++ LF ++
  LF ++
  "## Langdetect" ++ LF ++
  "- **Language**: und" ++ LF ++
  "- **Confidence**: 0.000" ++ LF.

(** * Properties *)

(** ** The error monad *)

Lemma try_except_returns {A : Type} (c : result A) (h : Exception -> result A) :
  (forall e, returns (h e)) -> returns (try_except c h).
Proof.
  intros Hh. destruct c as [a | e]; simpl.
  - exists a. reflexivity.
  - apply Hh.
Qed.

Lemma bind_Ok_inv {A B : Type} (c : result A) (k : A -> result B) (b : B) :
  bind c k = Ok b -> exists a, c = Ok a /\ k a = Ok b.
Proof.
  destruct c as [a | e]; simpl; intros H.
  - exists a. split; [reflexivity | exact H].
  - discriminate H.
Qed.

(** ** The statistical n-gram adapter (langdetect) *)

Lemma langdetect_total (E : Engines) (entropy : Z) (text : string) :
  returns (detect_language_langdetect E entropy text).
Proof.
  unfold detect_language_langdetect.
  apply try_except_returns. intros e. eexists. reflexivity.
Qed.

(** C5: the langdetect adapter reports the placeholder confidence 0.5 whenever
    the engine finds a language, reports ("und", 0.0) whenever the engine
    fails, and its confidence is never anything but 0.5 or 0.0. *)
Theorem langdetect_placeholder_confidence
    (E : Engines) (entropy : Z) (text : string) :
  (forall lang, langdetect_detect E entropy text = Ok lang ->
     detect_language_langdetect E entropy text = Ok (lang, f0_5)) /\
  (forall e, langdetect_detect E entropy text = Raise e ->
     detect_language_langdetect E entropy text = Ok ("und", f0_0)) /\
  (exists lang conf,
     detect_language_langdetect E entropy text = Ok (lang, conf) /\
     (conf = f0_5 \/ conf = f0_0)).
Proof.
  unfold detect_language_langdetect.
  destruct (langdetect_detect E entropy text) as [lang | e] eqn:Hd; simpl.
  - split; [| split].
    + intros lang' H. injection H as <-. reflexivity.
    + intros e H. discriminate H.
    + exists lang, f0_5. split; [reflexivity | left; reflexivity].
  - split; [| split].
    + intros lang H. discriminate H.
    + intros e' _. reflexivity.
    + exists "und", f0_0. split; [reflexivity | right; reflexivity].
Qed.

Lemma langdetect_placeholder_confidence_witness :
  detect_language_langdetect english_engines 7 "Hello, how are you?"
    = Ok ("en", f0_5) /\
  detect_language_langdetect failing_engines 7 "" = Ok ("und", f0_0).
Proof.
  split.
  - apply (proj1 (langdetect_placeholder_confidence
                    english_engines 7 "Hello, how are you?")).
    reflexivity.
  - apply (proj1 (proj2 (langdetect_placeholder_confidence
                           failing_engines 7 ""))
             (EngineError "No features in text.")).
    reflexivity.
Defined.


(** C9: langdetect being deterministic once a seed is configured, the
    adapter is deterministic under the seed that the module configures at
    import time: two calls on the same text, whatever the entropy of each,
    return the same answer, hence the same language code. *)
Theorem langdetect_seeded_deterministic
    (E : Engines) (entropy1 entropy2 : Z) (text : string) :
  seeded_runs_deterministic E ->
  detect_language_langdetect E entropy1 text
  = detect_language_langdetect E entropy2 text /\
  (forall lang1 conf1 lang2 conf2,
     detect_language_langdetect E entropy1 text = Ok (lang1, conf1) ->
     detect_language_langdetect E entropy2 text = Ok (lang2, conf2) ->
     lang1 = lang2).
Proof.
  intros Hseeded.
  assert (Heq : detect_language_langdetect E entropy1 text
                = detect_language_langdetect E entropy2 text).
  { unfold detect_language_langdetect, langdetect_detect,
      langdetect_detect_with, DetectorFactory_seed.
    rewrite (Hseeded 0 entropy1 entropy2 text). reflexivity. }
  split; [exact Heq |].
  intros lang1 conf1 lang2 conf2 H1 H2.
  rewrite Heq, H2 in H1. injection H1 as <- _. reflexivity.
Qed.

Lemma langdetect_seeded_deterministic_witness :
  detect_language_langdetect moody_engines 1 "Hei"
  = detect_language_langdetect moody_engines 2 "Hei".
Proof.
  apply (langdetect_seeded_deterministic moody_engines 1 2 "Hei").
  intros s entropy1 entropy2 text. reflexivity.
Defined.

(** The seed is what makes it so: without one, an engine that keeps to the
    same contract may answer differently from one call to the next. *)
Lemma langdetect_unseeded_may_differ :
  seeded_runs_deterministic moody_engines /\
  langdetect_detect_with None moody_engines 1 "Hei"
  <> langdetect_detect_with None moody_engines 2 "Hei".
Proof.
  split.
  - intros s entropy1 entropy2 text. reflexivity.
  - discriminate.
Qed.

(** ** Float comparisons *)

Lemma float_lt_not_ge (x y : float) :
  float_lt x y = true -> float_ge x y = false.
Proof.
  unfold float_lt, SFltb, float_ge.
  destruct (SFcompare x y) as [[ | | ] | ]; congruence.
Qed.



(** ** Label stripping *)

Lemma replace_from_absent (old new s : string) :
  contains old s = false -> replace_from old new O s = s.
Proof.
  induction s as [| c s IH]; intros H.
  - reflexivity.
  - cbn [contains] in H. apply orb_false_elim in H. destruct H as [Hp Hc].
    cbn [replace_from]. rewrite Hp. f_equal. apply IH. exact Hc.
Qed.

(** On a label of the engine's shape, the marker followed by a code,
    replacing the marker by nothing removes the prefix and leaves the code. *)
Lemma strip_label_prefix (code : string) :
  contains "__label__" code = false ->
  strip_label ("__label__" ++ code) = code.
Proof.
  intros H. unfold strip_label, str_replace.
  cbn [append replace_from].
  assert (Hp : prefix "__label__" ("__label__" ++ code) = true).
  { cbn. destruct code; reflexivity. }
  cbn [append] in Hp. rewrite Hp.
  cbn [String.length Nat.pred replace_from append].
  apply replace_from_absent. exact H.
Qed.

(** ** The subword n-gram adapter (fastText) *)

Lemma fasttext_total (E : Engines) (text : string) :
  returns (detect_language_fasttext E text).
Proof.
  unfold detect_language_fasttext.
  apply try_except_returns. intros e. eexists. reflexivity.
Qed.

(** When the engine raises, the adapter answers with its fallback. *)
Lemma fasttext_engine_raises (E : Engines) (text : string) (e : Exception) :
  predict E text 3 = Raise e ->
  detect_language_fasttext E text = Ok ("und", f0_0, []).
Proof.
  intros H. unfold detect_language_fasttext. rewrite H. reflexivity.
Qed.

(** Below the threshold (or on a NaN) the answer is "und", the alternatives
    are kept. *)
Lemma fasttext_below_threshold (E : Engines) (text : string)
    (labels : list string) (p0 : float) (ps : list float) :
  predict E text 3 = Ok (labels, p0 :: ps) ->
  float_ge p0 MIN_CONFIDENCE = false ->
  detect_language_fasttext E text
  = Ok ("und", f0_0, stripped_pairs labels (p0 :: ps)).
Proof.
  intros H Hlt. unfold detect_language_fasttext. rewrite H. simpl.
  rewrite Hlt. reflexivity.
Qed.

(** At the threshold or above, the answer is the top pair. *)
Lemma fasttext_meets_threshold (E : Engines) (text : string)
    (l0 : string) (ls : list string) (p0 : float) (ps : list float) :
  predict E text 3 = Ok (l0 :: ls, p0 :: ps) ->
  float_ge p0 MIN_CONFIDENCE = true ->
  detect_language_fasttext E text
  = Ok (strip_label l0, p0, stripped_pairs (l0 :: ls) (p0 :: ps)).
Proof.
  intros H Hge. unfold detect_language_fasttext. rewrite H. simpl.
  rewrite Hge. reflexivity.
Qed.

(** The engine answered above the threshold but with no label at all:
    [labels[0]] raises and the fallback is returned. *)
Lemma fasttext_no_label (E : Engines) (text : string) (probs : list float) :
  predict E text 3 = Ok ([], probs) ->
  exists conf, detect_language_fasttext E text = Ok ("und", conf, [])
               /\ conf = f0_0.
Proof.
  intros H. unfold detect_language_fasttext. rewrite H.
  destruct probs as [| p0 ps]; simpl.
  - exists f0_0. split; reflexivity.
  - destruct (float_ge p0 MIN_CONFIDENCE); simpl;
      exists f0_0; split; reflexivity.
Qed.

(** Every answer of the adapter, by cases on the engine's. *)
Lemma fasttext_cases (E : Engines) (text : string) :
  detect_language_fasttext E text = Ok ("und", f0_0, [])
  \/ (exists labels p0 ps,
        predict E text 3 = Ok (labels, p0 :: ps) /\
        float_ge p0 MIN_CONFIDENCE = false /\
        detect_language_fasttext E text
        = Ok ("und", f0_0, stripped_pairs labels (p0 :: ps)))
  \/ (exists l0 ls p0 ps,
        predict E text 3 = Ok (l0 :: ls, p0 :: ps) /\
        float_ge p0 MIN_CONFIDENCE = true /\
        detect_language_fasttext E text
        = Ok (strip_label l0, p0, stripped_pairs (l0 :: ls) (p0 :: ps))).
Proof.
  destruct (predict E text 3) as [[labels probs] | e] eqn:Hp.
  - destruct probs as [| p0 ps].
    + left. unfold detect_language_fasttext. rewrite Hp. reflexivity.
    + destruct (float_ge p0 MIN_CONFIDENCE) eqn:Hge.
      * destruct labels as [| l0 ls].
        -- left. unfold detect_language_fasttext. rewrite Hp. simpl.
           rewrite Hge. reflexivity.
        -- right. right. exists l0, ls, p0, ps.
           split; [reflexivity | split; [exact Hge |]].
           apply fasttext_meets_threshold; assumption.
      * right. left. exists labels, p0, ps.
        split; [reflexivity | split; [exact Hge |]].
        apply fasttext_below_threshold; assumption.
  - left. apply (fasttext_engine_raises E text e Hp).
Qed.

(** C2: the subword adapter's 0.10 policy.  Below the threshold the answer is
    ("und", 0.0) and the alternatives still hold the engine's pairs, labels
    stripped; at the threshold or above the answer is the top pair, label
    stripped.  With three labels and three probabilities from the engine the
    alternatives are three, and stripping a label made of the marker and a
    code leaves the code. *)
Theorem fasttext_min_confidence_policy
    (E : Engines) (text : string)
    (l0 : string) (ls : list string) (p0 : float) (ps : list float) :
  predict E text 3 = Ok (l0 :: ls, p0 :: ps) ->
  (float_lt p0 MIN_CONFIDENCE = true ->
     detect_language_fasttext E text
     = Ok ("und", f0_0, stripped_pairs (l0 :: ls) (p0 :: ps))) /\
  (float_ge p0 MIN_CONFIDENCE = true ->
     detect_language_fasttext E text
     = Ok (strip_label l0, p0, stripped_pairs (l0 :: ls) (p0 :: ps))) /\
  (List.length ls = 2%nat -> List.length ps = 2%nat ->
     List.length (stripped_pairs (l0 :: ls) (p0 :: ps)) = 3%nat) /\
  (forall code, l0 = "__label__" ++ code ->
     contains "__label__" code = false -> strip_label l0 = code).
Proof.
  intros H. split; [| split; [| split]]; cycle 3.
  { intros code -> Hcode. apply strip_label_prefix. exact Hcode. }
  - intros Hlt. apply fasttext_below_threshold; [exact H |].
    apply float_lt_not_ge. exact Hlt.
  - intros Hge. apply fasttext_meets_threshold; assumption.
  - intros Hls Hps. unfold stripped_pairs.
    rewrite length_map, length_combine. simpl. rewrite Hls, Hps. reflexivity.
Qed.

Lemma fasttext_min_confidence_policy_witness :
  detect_language_fasttext unsure_engines "Hm"
    = Ok ("und", f0_0, [("en", f0_05); ("de", f0_05); ("fr", f0_01)]) /\
  detect_language_fasttext english_engines "Hello, how are you?"
    = Ok ("en", f0_9, [("en", f0_9); ("de", f0_05); ("fr", f0_01)]).
Proof.
  split.
  - apply (proj1 (fasttext_min_confidence_policy unsure_engines "Hm"
                    "__label__en" ["__label__de"; "__label__fr"]
                    f0_05 [f0_05; f0_01] eq_refl)).
    reflexivity.
  - apply (proj1 (proj2 (fasttext_min_confidence_policy english_engines
                    "Hello, how are you?"
                    "__label__en" ["__label__de"; "__label__fr"]
                    f0_9 [f0_05; f0_01] eq_refl))).
    reflexivity.
Defined.

(** ** The compact neural adapter (gcld3) *)

Lemma gcld3_no_result (E : Engines) (text : string) :
  FindLanguage E text = Ok None ->
  detect_language_gcld3 E text = Ok ("und", f0_0, false).
Proof.
  intros H. unfold detect_language_gcld3. rewrite H. reflexivity.
Qed.

Lemma gcld3_result (E : Engines) (text : string) (r : Gcld3Result) :
  FindLanguage E text = Ok (Some r) ->
  detect_language_gcld3 E text
  = Ok (language r, probability r, is_reliable r).
Proof.
  intros H. unfold detect_language_gcld3. rewrite H. reflexivity.
Qed.

Lemma gcld3_engine_raises (E : Engines) (text : string) (e : Exception) :
  FindLanguage E text = Raise e ->
  detect_language_gcld3 E text = Raise e.
Proof.
  intros H. unfold detect_language_gcld3. rewrite H. reflexivity.
Qed.

(** The aggregator returns exactly when the compact neural engine does. *)
Lemma detect_language_returns_iff (E : Engines) (entropy : Z) (text : string) :
  returns (detect_language E entropy text) <-> returns (FindLanguage E text).
Proof.
  unfold detect_language.
  destruct (fasttext_total E text) as [[[ft_lang ft_conf] ft_alts] Hft].
  destruct (langdetect_total E entropy text) as [[ld_lang ld_conf] Hld].
  rewrite Hft, Hld. cbn [bind].
  unfold detect_language_gcld3.
  destruct (FindLanguage E text) as [[r |] | e]; cbn [bind].
  - split; intros _; eexists; reflexivity.
  - split; intros _; eexists; reflexivity.
  - split; intros [a Ha]; discriminate Ha.
Qed.

(** C1: an exception of the compact neural engine is not caught by its
    adapter: it leaves [detect_language_gcld3] and then [detect_language],
    which produces no report, while the two other adapters do absorb their
    engine's exceptions. *)
Theorem gcld3_exception_escapes
    (E : Engines) (entropy : Z) (text : string) (e : Exception) :
  FindLanguage E text = Raise e ->
  detect_language_gcld3 E text = Raise e /\
  detect_language E entropy text = Raise e.
Proof.
  intros H. split.
  - apply gcld3_engine_raises. exact H.
  - unfold detect_language.
    destruct (fasttext_total E text) as [[[ft_lang ft_conf] ft_alts] Hft].
    rewrite Hft. cbn [bind].
    rewrite (gcld3_engine_raises E text e H). reflexivity.
Qed.

Lemma gcld3_exception_escapes_witness :
  detect_language_gcld3 gcld3_raises "Hello, how are you?"
    = Raise (EngineError "FindLanguage failed") /\
  detect_language gcld3_raises 7 "Hello, how are you?"
    = Raise (EngineError "FindLanguage failed").
Proof.
  apply (gcld3_exception_escapes gcld3_raises 7 "Hello, how are you?").
  reflexivity.
Defined.

(** ** Confidence range *)




(** ** Order of the alternatives *)

Lemma descending_tail (a : float) (l : list float) :
  descending (a :: l) = true -> descending l = true.
Proof.
  destruct l as [| b t]; [reflexivity |].
  cbn [descending]. intros H. apply andb_true_iff in H. apply H.
Qed.

Lemma descending_firstn (n : nat) (l : list float) :
  descending l = true -> descending (firstn n l) = true.
Proof.
  revert n. induction l as [| a l IH]; intros n H.
  - destruct n; reflexivity.
  - destruct n as [| n]; [reflexivity |].
    pose proof (IH n (descending_tail a l H)) as IHn.
    destruct l as [| b t]; [destruct n; reflexivity |].
    destruct n as [| n]; [reflexivity |].
    cbn [firstn descending] in *.
    apply andb_true_iff in H. destruct H as [Hab _].
    rewrite Hab. exact IHn.
Qed.

Lemma stripped_pairs_probs (labels : list string) (probs : list float) :
  map snd (stripped_pairs labels probs) = firstn (List.length labels) probs.
Proof.
  unfold stripped_pairs. revert probs.
  induction labels as [| l ls IH]; intros probs.
  - reflexivity.
  - destruct probs as [| p ps]; [reflexivity |].
    cbn [combine map snd List.length firstn]. f_equal. apply IH.
Qed.

(** The alternatives are the engine's pairs in the engine's order, labels
    stripped: sorted when the engine's probabilities are, and headed by the
    primary pair when the top probability meets the threshold. *)
Lemma alternatives_follow_engine_order
    (E : Engines) (text : string) (labels : list string) (probs : list float)
    (lang : string) (conf : float) (alts : list (string * float)) :
  predict E text 3 = Ok (labels, probs) ->
  detect_language_fasttext E text = Ok (lang, conf, alts) ->
  alts <> [] ->
  alts = stripped_pairs labels probs /\
  (descending probs = true -> descending (map snd alts) = true) /\
  (forall p0 ps, probs = p0 :: ps -> float_ge p0 MIN_CONFIDENCE = true ->
     hd_error alts = Some (lang, conf)).
Proof.
  intros Hp H Hne.
  assert (Halts : alts = stripped_pairs labels probs
                  /\ (forall p0 ps, probs = p0 :: ps ->
                        float_ge p0 MIN_CONFIDENCE = true ->
                        hd_error alts = Some (lang, conf))).
  { destruct (fasttext_cases E text)
      as [H0 | [(labels' & p0 & ps & Hp' & Hlt & H1)
               | (l0 & ls & p0 & ps & Hp' & Hge & H1)]].
    - rewrite H0 in H. injection H as _ _ <-. contradiction Hne. reflexivity.
    - rewrite Hp in Hp'. injection Hp' as -> ->.
      rewrite H1 in H. injection H as <- <- <-.
      split; [reflexivity |].
      intros p0' ps' Heq Hge. injection Heq as <- <-. congruence.
    - rewrite Hp in Hp'. injection Hp' as -> ->.
      rewrite H1 in H. injection H as <- <- <-.
      split; [reflexivity |]. intros; reflexivity. }
  destruct Halts as [Halts Hhd].
  split; [exact Halts | split; [| exact Hhd]].
  intros Hdesc. rewrite Halts, stripped_pairs_probs.
  apply descending_firstn. exact Hdesc.
Qed.

(** C8: only the subword adapter returns alternatives.  Its engine
    answering with ranked pairs, the alternatives, when there are any, are
    sorted by non-increasing confidence; and when the top probability meets
    the 0.10 threshold, the primary pair is the first of the alternatives. *)
Theorem alternatives_ranked
    (E : Engines) (text : string)
    (lang : string) (conf : float) (alts : list (string * float)) :
  predict_ranked E text ->
  detect_language_fasttext E text = Ok (lang, conf, alts) ->
  (alts <> [] -> descending (map snd alts) = true) /\
  (forall labels p0 ps,
     predict E text 3 = Ok (labels, p0 :: ps) ->
     float_ge p0 MIN_CONFIDENCE = true ->
     hd_error alts = Some (lang, conf)).
Proof.
  intros Hranked H. split.
  - intros Hne.
    destruct (predict E text 3) as [[labels probs] | e] eqn:Hp.
    + destruct (Hranked labels probs Hp) as [_ Hdesc].
      destruct (alternatives_follow_engine_order E text labels probs
                  lang conf alts Hp H Hne) as (_ & Hsorted & _).
      apply Hsorted. exact Hdesc.
    + rewrite (fasttext_engine_raises E text e Hp) in H.
      injection H as _ _ <-. contradiction Hne. reflexivity.
  - intros labels p0 ps Hp Hge.
    destruct (Hranked labels (p0 :: ps) Hp) as [Hlen _].
    destruct labels as [| l0 ls]; [discriminate Hlen |].
    rewrite (fasttext_meets_threshold E text l0 ls p0 ps Hp Hge) in H.
    injection H as <- <- <-. reflexivity.
Qed.

Lemma alternatives_ranked_witness :
  descending (map snd [("en", f0_9); ("de", f0_05); ("fr", f0_01)]) = true /\
  hd_error [("en", f0_9); ("de", f0_05); ("fr", f0_01)] = Some ("en", f0_9).
Proof.
  assert (Hranked : predict_ranked english_engines "Hello, how are you?").
  { intros labels probs Hp. injection Hp as <- <-. split; reflexivity. }
  pose proof (alternatives_ranked english_engines "Hello, how are you?"
                "en" f0_9 [("en", f0_9); ("de", f0_05); ("fr", f0_01)]
                Hranked eq_refl) as [Hsorted Hhd].
  split.
  - apply Hsorted. discriminate.
  - apply (Hhd ["__label__en"; "__label__de"; "__label__fr"]
             f0_9 [f0_05; f0_01]); reflexivity.
Defined.

(** The order is the engine's: were the pairs to come unranked, the adapter
    would hand them on unranked. *)
Lemma alternatives_unranked :
  detect_language_fasttext unranked_engines "Hallo"
    = Ok ("en", f0_2, [("en", f0_2); ("de", f0_7)]) /\
  descending (map snd [("en", f0_2); ("de", f0_7)]) = false.
Proof. split; reflexivity. Qed.

(** ** Strings *)

Lemma string_app_assoc (a b c : string) : (a ++ b) ++ c = a ++ (b ++ c).
Proof.
  induction a as [| x a IH]; cbn [append].
  - reflexivity.
  - rewrite IH. reflexivity.
Qed.

Lemma string_app_nil_r (a : string) : a ++ "" = a.
Proof.
  induction a as [| x a IH]; cbn [append]; [| rewrite IH]; reflexivity.
Qed.

Lemma occurs_in_head (needle rest : string) : occurs_in needle (needle ++ rest).
Proof. exists "", rest. reflexivity. Qed.

Lemma occurs_in_last (needle : string) : occurs_in needle needle.
Proof. exists "", "". cbn [append]. rewrite string_app_nil_r. reflexivity. Qed.

Lemma occurs_in_skip (needle p s : string) :
  occurs_in needle s -> occurs_in needle (p ++ s).
Proof.
  intros (before & after & ->).
  exists (p ++ before), after. rewrite string_app_assoc. reflexivity.
Qed.

Lemma occurs_in_within (needle s rest : string) :
  occurs_in needle s -> occurs_in needle (s ++ rest).
Proof.
  intros (before & after & ->).
  exists before, (after ++ rest). rewrite !string_app_assoc. reflexivity.
Qed.

Lemma begins_with_head (start rest : string) :
  begins_with start (start ++ rest).
Proof. exists rest. reflexivity. Qed.

Lemma begins_with_refl (s : string) : begins_with s s.
Proof. exists "". rewrite string_app_nil_r. reflexivity. Qed.

Lemma begins_with_app (a start s : string) :
  begins_with start s -> begins_with (a ++ start) (a ++ s).
Proof.
  intros (rest & ->). exists rest. rewrite string_app_assoc. reflexivity.
Qed.

Lemma begins_with_occurs_in (start s : string) :
  begins_with start s -> occurs_in start s.
Proof. intros (rest & ->). apply occurs_in_head. Qed.

(** Every line of a joined list occurs in the joined text. *)
Lemma occurs_in_concat (sep line : string) (ls : list string) :
  In line ls -> occurs_in line (concat sep ls).
Proof.
  induction ls as [| l ls IH]; intros Hin; [contradiction |].
  destruct Hin as [-> | Hin].
  - destruct ls as [| l' ls]; cbn [concat].
    + apply occurs_in_last.
    + apply occurs_in_head.
  - destruct ls as [| l' ls]; [contradiction |].
    cbn [concat]. do 2 apply occurs_in_skip. apply IH. exact Hin.
Qed.

(** ** Fixed-point formatting *)

Lemma digit_is_digit (d : Z) : 0 <= d < 10 -> is_digit (digit d) = true.
Proof.
  intros H.
  assert (Hd : d = 0 \/ d = 1 \/ d = 2 \/ d = 3 \/ d = 4 \/
               d = 5 \/ d = 6 \/ d = 7 \/ d = 8 \/ d = 9) by lia.
  repeat (destruct Hd as [-> | Hd]; [reflexivity |]).
  subst d. reflexivity.
Qed.

Lemma all_digits_NilEmpty (u : Decimal.uint) :
  all_digits (NilEmpty.string_of_uint u) = true.
Proof.
  induction u; cbn [NilEmpty.string_of_uint all_digits];
    try rewrite IHu; reflexivity.
Qed.

Lemma decimal_all_digits (n : Z) : all_digits (decimal n) = true.
Proof.
  unfold decimal, NilZero.string_of_uint.
  destruct (N.to_uint (Z.to_N n)) eqn:Hu;
    try (rewrite <- Hu; apply all_digits_NilEmpty).
  reflexivity.
Qed.

Lemma decimal_not_empty (n : Z) : decimal n <> "".
Proof.
  unfold decimal, NilZero.string_of_uint.
  destruct (N.to_uint (Z.to_N n)); cbn [NilEmpty.string_of_uint]; discriminate.
Qed.

Lemma fixed3_three_decimals (s : bool) (n : Z) :
  three_decimals (sign s ++ fixed3 n).
Proof.
  exists (sign s), (decimal (n / 1000)),
    (digit (n / 100 mod 10)), (digit (n / 10 mod 10)), (digit (n mod 10)).
  split; [reflexivity |].
  split; [destruct s; [right | left]; reflexivity |].
  split; [apply decimal_not_empty |].
  split; [apply decimal_all_digits |].
  repeat split; apply digit_is_digit; apply Z.mod_pos_bound; lia.
Qed.

(** A finite float is printed with exactly three fractional digits. *)
Lemma format_3f_three_decimals (x : float) :
  is_finite x = true -> three_decimals (format_3f x).
Proof.
  destruct x as [s | s | | s m e]; cbn [is_finite format_3f]; intros H;
    try discriminate H.
  - exists (sign s), "0", "0"%char, "0"%char, "0"%char.
    repeat split; try reflexivity; try discriminate.
    destruct s; [right | left]; reflexivity.
  - apply fixed3_three_decimals.
Qed.

Lemma round_half_even_nearest (n d : Z) :
  0 < d -> 2 * Z.abs (round_half_even n d * d - n) <= d.
Proof.
  intros Hd. unfold round_half_even.
  pose proof (Z.div_mod n d ltac:(lia)) as Hdiv.
  pose proof (Z.mod_pos_bound n d Hd) as Hmod.
  cbv zeta.
  destruct (Z.compare_spec (2 * (n mod d)) d) as [Hc | Hc | Hc].
  - destruct (Z.even (n / d)); lia.
  - lia.
  - lia.
Qed.

(** Ties go to the even neighbour. *)
Lemma round_half_even_tie (n d : Z) :
  2 * (n mod d) = d -> Z.even (round_half_even n d) = true.
Proof.
  intros Htie. unfold round_half_even.
  rewrite Htie, Z.compare_refl.
  destruct (Z.even (n / d)) eqn:Hq; [exact Hq |].
  rewrite Z.even_add, Hq. reflexivity.
Qed.

(** The three digits printed are those of the nearest thousandth. *)
Lemma thousandths_nearest (m : positive) (e : Z) :
  nearest_thousandth (thousandths m e) m e.
Proof.
  unfold nearest_thousandth, thousandths.
  destruct (0 <=? e) eqn:He.
  - reflexivity.
  - apply Z.leb_gt in He.
    apply round_half_even_nearest.
    apply Z.pow_pos_nonneg; lia.
Qed.

(** ** The report *)

(** The f-string is the title and the three sections, a blank line before
    each. *)
Lemma markdown_result_template
    (ft_lang : string) (ft_conf : float)
    (ft_alternatives : list (string * float))
    (gcld_lang : string) (gcld_conf : float) (reliable : bool)
    (ld_lang : string) (ld_conf : float) :
  markdown_result ft_lang ft_conf ft_alternatives
    gcld_lang gcld_conf reliable ld_lang ld_conf
  = report_template (ft_lang, ft_conf, ft_alternatives)
      (gcld_lang, gcld_conf, reliable) (ld_lang, ld_conf).
Proof.
  unfold markdown_result, report_template, report_title,
    section_fasttext, section_gcld3, section_langdetect.
  repeat rewrite string_app_assoc. reflexivity.
Qed.

(** What the aggregator returns is the report of the three adapters'
    answers. *)
Lemma detect_language_report (E : Engines) (entropy : Z) (text : string)
    (report : string) :
  detect_language E entropy text = Ok report ->
  exists ft_lang ft_conf ft_alternatives gcld_lang gcld_conf reliable
         ld_lang ld_conf,
    detect_language_fasttext E text = Ok (ft_lang, ft_conf, ft_alternatives) /\
    detect_language_gcld3 E text = Ok (gcld_lang, gcld_conf, reliable) /\
    detect_language_langdetect E entropy text = Ok (ld_lang, ld_conf) /\
    report = markdown_result ft_lang ft_conf ft_alternatives
               gcld_lang gcld_conf reliable ld_lang ld_conf.
Proof.
  unfold detect_language. intros H.
  apply bind_Ok_inv in H.
  destruct H as ([[ft_lang ft_conf] ft_alternatives] & Hft & H).
  apply bind_Ok_inv in H.
  destruct H as ([[gcld_lang gcld_conf] reliable] & Hgcld & H).
  apply bind_Ok_inv in H.
  destruct H as ([ld_lang ld_conf] & Hld & H).
  injection H as <-.
  exists ft_lang, ft_conf, ft_alternatives, gcld_lang, gcld_conf, reliable,
    ld_lang, ld_conf.
  repeat split; assumption.
Qed.

(** C7: the report is a function of the three adapters' answers alone: two
    calls whose adapters answer alike return the same string, whatever the
    engines, texts and entropy behind them; every language code and every
    alternative's line is in the report as it is, none left out; and every
    confidence is printed as the nearest thousandth of its exact value. *)
Theorem rendering_pure_and_faithful
    (ft_lang : string) (ft_conf : float)
    (ft_alternatives : list (string * float))
    (gcld_lang : string) (gcld_conf : float) (reliable : bool)
    (ld_lang : string) (ld_conf : float) :
  let report := markdown_result ft_lang ft_conf ft_alternatives
                  gcld_lang gcld_conf reliable ld_lang ld_conf in
  (forall (E E' : Engines) (entropy entropy' : Z) (text text' : string),
     detect_language_fasttext E text = detect_language_fasttext E' text' ->
     detect_language_gcld3 E text = detect_language_gcld3 E' text' ->
     detect_language_langdetect E entropy text
     = detect_language_langdetect E' entropy' text' ->
     detect_language E entropy text = detect_language E' entropy' text') /\
  occurs_in ("- **Main prediction**: " ++ ft_lang ++
             " (confidence: " ++ format_3f ft_conf ++ ")") report /\
  occurs_in ("## GCLD3" ++ LF ++ "- **Language**: " ++ gcld_lang ++ LF ++
             "- **Confidence**: " ++ format_3f gcld_conf ++ LF) report /\
  occurs_in ("## Langdetect" ++ LF ++ "- **Language**: " ++ ld_lang ++ LF ++
             "- **Confidence**: " ++ format_3f ld_conf ++ LF) report /\
  occurs_in (concat LF (map alternative_line ft_alternatives)) report /\
  (forall lang conf, In (lang, conf) ft_alternatives ->
     occurs_in ("  - " ++ lang ++ ": " ++ format_3f conf) report) /\
  (forall s m e,
     In (S754_finite s m e)
        (ft_conf :: gcld_conf :: ld_conf :: map snd ft_alternatives) ->
     format_3f (S754_finite s m e) = sign s ++ fixed3 (thousandths m e) /\
     nearest_thousandth (thousandths m e) m e).
Proof.
  intros report.
  split.
  { intros E E' entropy entropy' text text' Hft Hgcld Hld.
    unfold detect_language. rewrite Hft, Hgcld, Hld. reflexivity. }
  split.
  { unfold report, markdown_result. do 5 apply occurs_in_skip.
    apply begins_with_occurs_in.
    do 4 apply begins_with_app. apply begins_with_head. }
  split.
  { unfold report, markdown_result. do 16 apply occurs_in_skip.
    apply begins_with_occurs_in.
    do 7 apply begins_with_app. apply begins_with_head. }
  split.
  { unfold report, markdown_result. do 28 apply occurs_in_skip.
    apply begins_with_occurs_in. apply begins_with_refl. }
  split.
  { unfold report, markdown_result. do 13 apply occurs_in_skip.
    apply occurs_in_head. }
  split.
  { intros lang conf Hin.
    unfold report, markdown_result. do 13 apply occurs_in_skip.
    apply occurs_in_within. apply occurs_in_concat.
    apply (in_map alternative_line _ _ Hin). }
  intros s m e _. split; [reflexivity | apply thousandths_nearest].
Qed.

(** ** Counting the sections of a report *)

Lemma single_line_app (a b : string) :
  single_line (a ++ b) = single_line a && single_line b.
Proof.
  induction a as [| c a IH]; cbn [append single_line].
  - reflexivity.
  - rewrite IH, andb_assoc. reflexivity.
Qed.

Lemma is_digit_not_LF (c : ascii) : is_digit c = true -> is_LF c = false.
Proof.
  intros H. unfold is_LF.
  destruct (Ascii.eqb_spec c (ascii_of_nat 10)) as [-> | _].
  - discriminate H.
  - reflexivity.
Qed.

Lemma all_digits_single_line (s : string) :
  all_digits s = true -> single_line s = true.
Proof.
  induction s as [| c s IH]; cbn [all_digits single_line]; intros H.
  - reflexivity.
  - apply andb_true_iff in H. destruct H as [Hc Hs].
    rewrite (is_digit_not_LF c Hc), (IH Hs). reflexivity.
Qed.

Lemma sign_single_line (s : bool) : single_line (sign s) = true.
Proof. destruct s; reflexivity. Qed.

Lemma digit_single_line (d : Z) (rest : string) :
  0 <= d < 10 ->
  single_line (String (digit d) rest) = single_line rest.
Proof.
  intros H. cbn [single_line].
  rewrite (is_digit_not_LF _ (digit_is_digit d H)). reflexivity.
Qed.

(** Whatever the float, its printed form stays on one line. *)
Lemma format_3f_single_line (x : float) : single_line (format_3f x) = true.
Proof.
  destruct x as [s | s | | s m e]; cbn [format_3f];
    try (destruct s; reflexivity); try reflexivity.
  unfold fixed3, fraction3.
  rewrite !single_line_app, sign_single_line.
  rewrite (all_digits_single_line _ (decimal_all_digits _)).
  rewrite !digit_single_line by (apply Z.mod_pos_bound; lia).
  reflexivity.
Qed.

Lemma str_bool_single_line (b : bool) : single_line (str_bool b) = true.
Proof. destruct b; reflexivity. Qed.

(** A stretch of text without line feed, met in the middle of a line, opens
    no section and leaves us in the middle of a line. *)
Lemma count_headers_single_line (x rest : string) :
  single_line x = true ->
  count_headers false (x ++ rest) = count_headers false rest.
Proof.
  induction x as [| c x IH]; cbn [append single_line]; intros H.
  - reflexivity.
  - apply andb_true_iff in H. destruct H as [Hc Hx].
    apply negb_true_iff in Hc.
    cbn [count_headers andb]. rewrite Hc. apply IH. exact Hx.
Qed.

(** An item line opens no section. *)
Lemma count_headers_alternative_line (alt : string * float) (rest : string) :
  single_line (fst alt) = true ->
  count_headers true (alternative_line alt ++ String "010" rest)
  = count_headers true rest.
Proof.
  destruct alt as [lang conf]. cbn [fst]. intros Hlang.
  unfold alternative_line. rewrite !string_app_assoc. cbn.
  rewrite (count_headers_single_line lang _ Hlang). cbn.
  rewrite (count_headers_single_line _ _ (format_3f_single_line conf)).
  reflexivity.
Qed.

(** Nor does the block of item lines, however many they are. *)
Lemma count_headers_alternatives
    (alts : list (string * float)) (rest : string) :
  Forall (fun alt => single_line (fst alt) = true) alts ->
  count_headers true
    (concat LF (map alternative_line alts) ++ String "010" rest)
  = count_headers true rest.
Proof.
  induction alts as [| alt alts IH]; intros Hall.
  - reflexivity.
  - inversion Hall as [| ? ? Halt Htail]; subst.
    destruct alts as [| alt' alts].
    + cbn [map concat]. apply count_headers_alternative_line. exact Halt.
    + specialize (IH Htail).
      remember (alt' :: alts) as tail eqn:Htl.
      cbn [map]. 
      assert (Hc : concat LF (alternative_line alt :: map alternative_line tail)
                   = alternative_line alt ++ LF
                     ++ concat LF (map alternative_line tail)).
      { subst tail. reflexivity. }
      rewrite Hc, !string_app_assoc.
      change (LF ++ ?s) with (String "010" s).
      rewrite count_headers_alternative_line by exact Halt.
      exact IH.
Qed.

(** With codes that hold no line feed, a report has three section lines. *)
Lemma markdown_result_section_count
    (ft_lang : string) (ft_conf : float)
    (ft_alternatives : list (string * float))
    (gcld_lang : string) (gcld_conf : float) (reliable : bool)
    (ld_lang : string) (ld_conf : float) :
  single_line ft_lang = true ->
  single_line gcld_lang = true ->
  single_line ld_lang = true ->
  Forall (fun alt => single_line (fst alt) = true) ft_alternatives ->
  section_count (markdown_result ft_lang ft_conf ft_alternatives
                   gcld_lang gcld_conf reliable ld_lang ld_conf) = 3%nat.
Proof.
  intros Hft Hgcld Hld Halts.
  unfold section_count, markdown_result. cbn.
  rewrite (count_headers_single_line ft_lang _ Hft). cbn.
  rewrite (count_headers_single_line _ _ (format_3f_single_line ft_conf)). cbn.
  rewrite (count_headers_alternatives ft_alternatives _ Halts). cbn.
  rewrite (count_headers_single_line gcld_lang _ Hgcld). cbn.
  rewrite (count_headers_single_line _ _ (format_3f_single_line gcld_conf)).
  cbn.
  rewrite (count_headers_single_line _ _ (str_bool_single_line reliable)).
  cbn.
  rewrite (count_headers_single_line ld_lang _ Hld). cbn.
  rewrite (count_headers_single_line _ _ (format_3f_single_line ld_conf)).
  reflexivity.
Qed.

(** C3: the report is the title and then exactly three sections, FastText,
    GCLD3, Langdetect in this order, each one with its language code and its
    confidence; a finite confidence is printed with exactly three fractional
    digits; and, the codes holding no line feed, three lines of the report
    open a section. *)
Theorem report_three_sections
    (ft_lang : string) (ft_conf : float)
    (ft_alternatives : list (string * float))
    (gcld_lang : string) (gcld_conf : float) (reliable : bool)
    (ld_lang : string) (ld_conf : float) :
  let report := markdown_result ft_lang ft_conf ft_alternatives
                  gcld_lang gcld_conf reliable ld_lang ld_conf in
  report = report_title ++ LF ++
           section_fasttext ft_lang ft_conf ft_alternatives ++ LF ++
           section_gcld3 gcld_lang gcld_conf reliable ++ LF ++
           section_langdetect ld_lang ld_conf /\
  (is_finite ft_conf = true -> three_decimals (format_3f ft_conf)) /\
  (is_finite gcld_conf = true -> three_decimals (format_3f gcld_conf)) /\
  (is_finite ld_conf = true -> three_decimals (format_3f ld_conf)) /\
  (single_line ft_lang = true ->
   single_line gcld_lang = true ->
   single_line ld_lang = true ->
   Forall (fun alt => single_line (fst alt) = true) ft_alternatives ->
   section_count report = 3%nat).
Proof.
  intros report. split; [| split; [| split; [| split]]].
  - apply markdown_result_template.
  - apply format_3f_three_decimals.
  - apply format_3f_three_decimals.
  - apply format_3f_three_decimals.
  - apply markdown_result_section_count.
Qed.

Lemma report_three_sections_witness :
  three_decimals "0.900" /\ three_decimals "0.990" /\ three_decimals "0.500" /\
  section_count
    (markdown_result "en" f0_9 [("en", f0_9); ("de", f0_05); ("fr", f0_01)]
       "en" f0_99 true "en" f0_5) = 3%nat.
Proof.
  pose proof (report_three_sections
                "en" f0_9 [("en", f0_9); ("de", f0_05); ("fr", f0_01)]
                "en" f0_99 true "en" f0_5) as (_ & Hft & Hgcld & Hld & Hcount).
  split; [| split; [| split]].
  - apply Hft. reflexivity.
  - apply Hgcld. reflexivity.
  - apply Hld. reflexivity.
  - apply Hcount; try reflexivity.
    repeat constructor.
Defined.

Lemma rendering_pure_and_faithful_witness :
  detect_language english_engines 1 "Hello, how are you?"
  = detect_language english_engines 2 "Good morning" /\
  occurs_in "  - de: 0.050"
    (markdown_result "en" f0_9 [("en", f0_9); ("de", f0_05); ("fr", f0_01)]
       "en" f0_99 true "en" f0_5) /\
  nearest_thousandth 50 7205759403792794 (-57).
Proof.
  pose proof (rendering_pure_and_faithful
                "en" f0_9 [("en", f0_9); ("de", f0_05); ("fr", f0_01)]
                "en" f0_99 true "en" f0_5)
    as (Hpure & _ & _ & _ & _ & Hitem & Hround).
  split; [| split].
  - apply Hpure; reflexivity.
  - apply (Hitem "de" f0_05). right. left. reflexivity.
  - apply (Hround false 7205759403792794%positive (-57)).
    do 4 right. left. reflexivity.
Defined.

(** ** Reports without alternatives *)

(** Without alternatives, the subword adapter's answer is ("und", 0.0). *)
Lemma fasttext_no_alternatives (E : Engines) (text : string)
    (lang : string) (conf : float) :
  detect_language_fasttext E text = Ok (lang, conf, []) ->
  lang = "und" /\ conf = f0_0.
Proof.
  intros H.
  destruct (fasttext_cases E text)
    as [H0 | [(labels & p0 & ps & _ & _ & H1)
             | (l0 & ls & p0 & ps & _ & _ & H1)]].
  - rewrite H0 in H. injection H as <- <-. split; reflexivity.
  - rewrite H1 in H. injection H as <- <- _. split; reflexivity.
  - rewrite H1 in H. injection H as _ _ Habs. discriminate Habs.
Qed.

(** C10: whenever the aggregator returns, its report is the three sections
    with every header and every field label; and when the subword adapter
    returns no alternatives, the "Alternative predictions" label is still
    there, followed by no item line: an empty line, the blank line, and the
    next section. *)
Theorem report_labels_always_present
    (E : Engines) (entropy : Z) (text : string) (report : string) :
  detect_language E entropy text = Ok report ->
  (exists ft gcld ld,
     detect_language_fasttext E text = Ok ft /\
     detect_language_gcld3 E text = Ok gcld /\
     detect_language_langdetect E entropy text = Ok ld /\
     report = report_template ft gcld ld) /\
  occurs_in ("## FastText" ++ LF ++ "- **Main prediction**: ") report /\
  occurs_in ("- **Alternative predictions**:" ++ LF) report /\
  occurs_in ("## GCLD3" ++ LF ++ "- **Language**: ") report /\
  occurs_in ("- **Confidence**: ") report /\
  occurs_in ("- **Is reliable**: ") report /\
  occurs_in ("## Langdetect" ++ LF ++ "- **Language**: ") report /\
  (forall lang conf,
     detect_language_fasttext E text = Ok (lang, conf, []) ->
     begins_with
       ("# Language Detection Results" ++ LF ++
        LF ++
        "## FastText" ++ LF ++
        "- **Main prediction**: und (confidence: 0.000)" ++ LF ++
        "- **Alternative predictions**:" ++ LF ++
        LF ++
        LF ++
        "## GCLD3" ++ LF)
       report).
Proof.
  intros H.
  destruct (detect_language_report E entropy text report H)
    as (ft_lang & ft_conf & ft_alts & gcld_lang & gcld_conf & reliable
        & ld_lang & ld_conf & Hft & Hgcld & Hld & ->).
  split.
  { exists (ft_lang, ft_conf, ft_alts), (gcld_lang, gcld_conf, reliable),
      (ld_lang, ld_conf).
    repeat split; try assumption. apply markdown_result_template. }
  split.
  { unfold markdown_result. do 3 apply occurs_in_skip.
    apply begins_with_occurs_in.
    do 2 apply begins_with_app. apply begins_with_head. }
  split.
  { unfold markdown_result. do 11 apply occurs_in_skip.
    apply begins_with_occurs_in.
    apply begins_with_app. apply begins_with_head. }
  split.
  { unfold markdown_result. do 16 apply occurs_in_skip.
    apply begins_with_occurs_in.
    do 2 apply begins_with_app. apply begins_with_head. }
  split.
  { unfold markdown_result. do 21 apply occurs_in_skip.
    apply occurs_in_head. }
  split.
  { unfold markdown_result. do 24 apply occurs_in_skip.
    apply occurs_in_head. }
  split.
  { unfold markdown_result. do 28 apply occurs_in_skip.
    apply begins_with_occurs_in.
    do 2 apply begins_with_app. apply begins_with_head. }
  intros lang conf Hnone.
  rewrite Hft in Hnone. injection Hnone as -> -> ->.
  destruct (fasttext_no_alternatives E text lang conf Hft) as [-> ->].
  exists ("- **Language**: " ++ gcld_lang ++ LF ++
          "- **Confidence**: " ++ format_3f gcld_conf ++ LF ++
          "- **Is reliable**: " ++ str_bool reliable ++ LF ++
          LF ++
          "## Langdetect" ++ LF ++
          "- **Language**: " ++ ld_lang ++ LF ++
          "- **Confidence**: " ++ format_3f ld_conf ++ LF).
  reflexivity.
Qed.

Lemma report_labels_always_present_witness :
  occurs_in ("- **Is reliable**: ")
    (markdown_result "und" f0_0 [] "und" f0_0 false "und" f0_0) /\
  begins_with
    ("# Language Detection Results" ++ LF ++
     LF ++
     "## FastText" ++ LF ++
     "- **Main prediction**: und (confidence: 0.000)" ++ LF ++
     "- **Alternative predictions**:" ++ LF ++
     LF ++
     LF ++
     "## GCLD3" ++ LF)
    (markdown_result "und" f0_0 [] "und" f0_0 false "und" f0_0).
Proof.
  pose proof (report_labels_always_present failing_engines 7 ""
                (markdown_result "und" f0_0 [] "und" f0_0 false "und" f0_0)
                eq_refl)
    as (_ & _ & _ & _ & _ & Hrel & _ & Hempty).
  split.
  - exact Hrel.
  - apply (Hempty "und" f0_0). reflexivity.
Defined.

(** * Further properties of the adapters and of the report *)

(** ** Failures *)

(** X1: the aggregator fails exactly when the compact neural engine raises,
    and then with that engine's exception: no failure of the two other
    engines ever reaches the caller. *)
Theorem aggregator_fails_only_with_gcld3
    (E : Engines) (entropy : Z) (text : string) (e : Exception) :
  detect_language E entropy text = Raise e <-> FindLanguage E text = Raise e.
Proof.
  unfold detect_language.
  destruct (fasttext_total E text) as [[[ft_lang ft_conf] ft_alts] Hft].
  destruct (langdetect_total E entropy text) as [[ld_lang ld_conf] Hld].
  rewrite Hft, Hld. cbn [bind].
  unfold detect_language_gcld3.
  destruct (FindLanguage E text) as [[r |] | e']; cbn [bind].
  - split; intros H; discriminate H.
  - split; intros H; discriminate H.
  - split; intros H; injection H as <-; reflexivity.
Qed.

Lemma aggregator_fails_only_with_gcld3_witness :
  detect_language gcld3_raises 7 "Hello, how are you?"
  = Raise (EngineError "FindLanguage failed").
Proof.
  apply (proj2 (aggregator_fails_only_with_gcld3 gcld3_raises 7
                  "Hello, how are you?" (EngineError "FindLanguage failed"))).
  reflexivity.
Defined.

(** X10: when the subword and the statistical engines raise and the compact
    neural engine yields no result, the caller still gets a report, the same
    whatever the text and the exceptions: three undetermined answers. *)
Theorem report_when_engines_fail
    (E : Engines) (entropy : Z) (text : string) (e1 e2 : Exception) :
  predict E text 3 = Raise e1 ->
  FindLanguage E text = Ok None ->
  langdetect_detect E entropy text = Raise e2 ->
  detect_language E entropy text = Ok undetermined_report.
Proof.
  intros Hft Hgcld Hld. unfold detect_language.
  rewrite (fasttext_engine_raises E text e1 Hft). cbn [bind].
  rewrite (gcld3_no_result E text Hgcld). cbn [bind].
  unfold detect_language_langdetect. rewrite Hld. reflexivity.
Qed.

Lemma report_when_engines_fail_witness :
  detect_language failing_engines 7 "12345" = Ok undetermined_report.
Proof.
  apply (report_when_engines_fail failing_engines 7 "12345"
           (ValueError "predict processes one line at a time")
           (EngineError "No features in text."));
    reflexivity.
Defined.

(** ** The subword adapter's answers *)

(** X2: the subword adapter's confidence is either 0.0, with the language
    "und", or the engine's top probability, which then is at least 0.10 and
    comes with the engine's top label, stripped; it is never a NaN and never
    a value below the threshold other than 0.0. *)
Theorem fasttext_confidence_zero_or_above_threshold
    (E : Engines) (text : string)
    (lang : string) (conf : float) (alts : list (string * float)) :
  detect_language_fasttext E text = Ok (lang, conf, alts) ->
  ((lang = "und" /\ conf = f0_0) \/
   (float_ge conf MIN_CONFIDENCE = true /\
    exists l0 ls ps,
      predict E text 3 = Ok (l0 :: ls, conf :: ps) /\
      lang = strip_label l0)) /\
  conf <> S754_nan.
Proof.
  intros H.
  destruct (fasttext_cases E text)
    as [H0 | [(labels & p0 & ps & _ & _ & H1)
             | (l0 & ls & p0 & ps & Hp & Hge & H1)]].
  - rewrite H0 in H. injection H as <- <- _.
    split; [left; split; reflexivity | discriminate].
  - rewrite H1 in H. injection H as <- <- _.
    split; [left; split; reflexivity | discriminate].
  - rewrite H1 in H. injection H as <- <- _.
    split.
    + right. split; [exact Hge |]. exists l0, ls, ps.
      split; [exact Hp | reflexivity].
    + intros ->. discriminate Hge.
Qed.

Lemma fasttext_confidence_zero_or_above_threshold_witness :
  (("en" = "und" /\ f0_9 = f0_0) \/
   (float_ge f0_9 MIN_CONFIDENCE = true /\
    exists l0 ls ps,
      predict english_engines "Hello, how are you?" 3
      = Ok (l0 :: ls, f0_9 :: ps) /\
      "en" = strip_label l0)) /\
  f0_9 <> S754_nan.
Proof.
  apply (fasttext_confidence_zero_or_above_threshold english_engines
           "Hello, how are you?" "en" f0_9
           [("en", f0_9); ("de", f0_05); ("fr", f0_01)]).
  reflexivity.
Defined.

(** X3: an engine answer without labels or without probabilities is met by
    the fallback: indexing the empty sequence raises inside the [try], or
    nothing is left to report. *)
Theorem fasttext_degenerate_answer
    (E : Engines) (text : string) (labels : list string) (probs : list float) :
  predict E text 3 = Ok (labels, probs) ->
  labels = [] \/ probs = [] ->
  detect_language_fasttext E text = Ok ("und", f0_0, []).
Proof.
  intros Hp Hempty. unfold detect_language_fasttext. rewrite Hp.
  destruct probs as [| p0 ps].
  - reflexivity.
  - destruct Hempty as [-> | Habs]; [| discriminate Habs].
    cbn. destruct (float_ge p0 MIN_CONFIDENCE); reflexivity.
Qed.

Lemma fasttext_degenerate_answer_witness :
  detect_language_fasttext silent_engines "" = Ok ("und", f0_0, []).
Proof.
  apply (fasttext_degenerate_answer silent_engines "" [] []).
  - reflexivity.
  - left. reflexivity.
Defined.

(** X4: the alternatives pair the labels and the probabilities position by
    position and stop at the shorter of the two: they are as many as the
    shorter has, their confidences are the engine's first probabilities as
    they are, their codes the engine's first labels, stripped. *)
Theorem alternatives_stop_at_shorter
    (E : Engines) (text : string) (labels : list string) (probs : list float)
    (lang : string) (conf : float) (alts : list (string * float)) :
  predict E text 3 = Ok (labels, probs) ->
  detect_language_fasttext E text = Ok (lang, conf, alts) ->
  List.length alts = Nat.min (List.length labels) (List.length probs) /\
  map snd alts = firstn (List.length alts) probs /\
  map fst alts = map strip_label (firstn (List.length alts) labels).
Proof.
  intros Hp H.
  assert (Halts : alts = stripped_pairs labels probs).
  { destruct (fasttext_cases E text)
      as [H0 | [(labels' & p0 & ps & Hp' & _ & H1)
               | (l0 & ls & p0 & ps & Hp' & _ & H1)]].
    - rewrite H0 in H. injection H as _ _ <-.
      unfold detect_language_fasttext in H0. rewrite Hp in H0.
      destruct probs as [| p0 ps].
      + unfold stripped_pairs. rewrite combine_nil. reflexivity.
      + destruct labels as [| l0 ls]; [reflexivity |].
        cbn in H0. destruct (float_ge p0 MIN_CONFIDENCE); discriminate H0.
    - rewrite Hp in Hp'. injection Hp' as -> ->.
      rewrite H1 in H. injection H as _ _ <-. reflexivity.
    - rewrite Hp in Hp'. injection Hp' as -> ->.
      rewrite H1 in H. injection H as _ _ <-. reflexivity. }
  subst alts. clear H Hp.
  assert (Hlen : List.length (stripped_pairs labels probs)
                 = Nat.min (List.length labels) (List.length probs)).
  { unfold stripped_pairs. rewrite length_map, length_combine. reflexivity. }
  split; [exact Hlen | split].
  - rewrite stripped_pairs_probs, Hlen.
    clear Hlen. revert probs.
    induction labels as [| l ls IH]; intros probs; [reflexivity |].
    destruct probs as [| p ps]; [reflexivity |].
    cbn [List.length Nat.min firstn]. f_equal. apply IH.
  - rewrite Hlen. unfold stripped_pairs. clear Hlen. revert probs.
    induction labels as [| l ls IH]; intros probs; [reflexivity |].
    destruct probs as [| p ps]; [reflexivity |].
    cbn [List.length Nat.min firstn combine map fst]. f_equal. apply IH.
Qed.

Lemma alternatives_stop_at_shorter_witness :
  List.length [("en", f0_9); ("de", f0_05)] = 2%nat /\
  map snd [("en", f0_9); ("de", f0_05)] = [f0_9; f0_05] /\
  map fst [("en", f0_9); ("de", f0_05)] = ["en"; "de"].
Proof.
  apply (alternatives_stop_at_shorter lopsided_engines "Hello"
           ["__label__en"; "__label__de"; "__label__fr"] [f0_9; f0_05]
           "en" f0_9 [("en", f0_9); ("de", f0_05)]);
    reflexivity.
Defined.

(** X9: a label that does not hold the marker is left as it is. *)
Theorem strip_label_without_marker (label : string) :
  contains "__label__" label = false -> strip_label label = label.
Proof.
  intros H. unfold strip_label, str_replace.
  apply replace_from_absent. exact H.
Qed.

Lemma strip_label_without_marker_witness : strip_label "zh-Latn" = "zh-Latn".
Proof. apply strip_label_without_marker. reflexivity. Defined.

(** ** The compact neural adapter's answers *)

(** X8: the compact neural adapter flags an answer as reliable only when its
    engine returned a result and flagged it so; the answer is then that
    result's, as it is.  The fallback is never flagged reliable. *)
Theorem gcld3_reliable_only_from_engine
    (E : Engines) (text : string) (lang : string) (conf : float) :
  detect_language_gcld3 E text = Ok (lang, conf, true) ->
  exists r,
    FindLanguage E text = Ok (Some r) /\
    is_reliable r = true /\ language r = lang /\ probability r = conf.
Proof.
  unfold detect_language_gcld3.
  destruct (FindLanguage E text) as [[r |] | e]; cbn [bind]; intros H.
  - injection H as <- <- Hrel. exists r. repeat split. exact Hrel.
  - discriminate H.
  - discriminate H.
Qed.

Lemma gcld3_reliable_only_from_engine_witness :
  exists r,
    FindLanguage english_engines "Hello, how are you?" = Ok (Some r) /\
    is_reliable r = true /\ language r = "en" /\ probability r = f0_99.
Proof.
  apply (gcld3_reliable_only_from_engine english_engines
           "Hello, how are you?" "en" f0_99).
  reflexivity.
Defined.

(** ** The top pair in the report *)

Lemma begins_with_within (start s rest : string) :
  begins_with start s -> begins_with start (s ++ rest).
Proof.
  intros (r & ->). exists (r ++ rest). rewrite string_app_assoc. reflexivity.
Qed.

Lemma begins_with_concat_head (sep x : string) (l : list string) :
  begins_with x (concat sep (x :: l)).
Proof.
  destruct l as [| y l]; cbn [concat].
  - apply begins_with_refl.
  - apply begins_with_head.
Qed.

(** X5: whenever the subword engine answers with a top pair, the report
    shows it as the first item under "Alternative predictions", right below
    the main prediction: the same code and confidence when the top
    probability meets the threshold, "und" and 0.000 above the engine's own
    pair when it does not. *)
Theorem report_shows_top_pair
    (E : Engines) (entropy : Z) (text : string)
    (l0 : string) (ls : list string) (p0 : float) (ps : list float)
    (report : string) :
  predict E text 3 = Ok (l0 :: ls, p0 :: ps) ->
  detect_language E entropy text = Ok report ->
  (float_ge p0 MIN_CONFIDENCE = true ->
   occurs_in
     ("- **Main prediction**: " ++ strip_label l0 ++
        " (confidence: " ++ format_3f p0 ++ ")" ++ LF ++
      "- **Alternative predictions**:" ++ LF ++
      "  - " ++ strip_label l0 ++ ": " ++ format_3f p0)
     report) /\
  (float_ge p0 MIN_CONFIDENCE = false ->
   occurs_in
     ("- **Main prediction**: und (confidence: 0.000)" ++ LF ++
      "- **Alternative predictions**:" ++ LF ++
      "  - " ++ strip_label l0 ++ ": " ++ format_3f p0)
     report).
Proof.
  intros Hp H.
  destruct (detect_language_report E entropy text report H)
    as (ft_lang & ft_conf & ft_alts & gcld_lang & gcld_conf & reliable
        & ld_lang & ld_conf & Hft & _ & _ & ->).
  split; intros Hth.
  - rewrite (fasttext_meets_threshold E text l0 ls p0 ps Hp Hth) in Hft.
    injection Hft as <- <- <-.
    unfold markdown_result. do 5 apply occurs_in_skip.
    apply begins_with_occurs_in. do 8 apply begins_with_app.
    apply begins_with_within.
    apply (begins_with_concat_head LF
             (alternative_line (strip_label l0, p0))).
  - rewrite (fasttext_below_threshold E text (l0 :: ls) p0 ps Hp Hth) in Hft.
    injection Hft as <- <- <-.
    change (occurs_in
              ("- **Main prediction**: " ++ "und" ++
                 " (confidence: " ++ format_3f f0_0 ++ ")" ++ LF ++
               "- **Alternative predictions**:" ++ LF ++
               "  - " ++ strip_label l0 ++ ": " ++ format_3f p0)
              (markdown_result "und" f0_0
                 (stripped_pairs (l0 :: ls) (p0 :: ps))
                 gcld_lang gcld_conf reliable ld_lang ld_conf)).
    unfold markdown_result. do 5 apply occurs_in_skip.
    apply begins_with_occurs_in. do 8 apply begins_with_app.
    apply begins_with_within.
    apply (begins_with_concat_head LF
             (alternative_line (strip_label l0, p0))).
Qed.

Lemma report_shows_top_pair_witness :
  occurs_in
    ("- **Main prediction**: en (confidence: 0.900)" ++ LF ++
     "- **Alternative predictions**:" ++ LF ++
     "  - en: 0.900")
    (markdown_result "en" f0_9 [("en", f0_9); ("de", f0_05); ("fr", f0_01)]
       "en" f0_99 true "en" f0_5) /\
  occurs_in
    ("- **Main prediction**: und (confidence: 0.000)" ++ LF ++
     "- **Alternative predictions**:" ++ LF ++
     "  - en: 0.050")
    (markdown_result "und" f0_0 [("en", f0_05); ("de", f0_05); ("fr", f0_01)]
       "en" f0_99 true "en" f0_5).
Proof.
  split.
  - apply (proj1 (report_shows_top_pair english_engines 7
                    "Hello, how are you?"
                    "__label__en" ["__label__de"; "__label__fr"]
                    f0_9 [f0_05; f0_01] _ eq_refl eq_refl)).
    reflexivity.
  - apply (proj2 (report_shows_top_pair unsure_engines 7 "Hm"
                    "__label__en" ["__label__de"; "__label__fr"]
                    f0_05 [f0_05; f0_01] _ eq_refl eq_refl)).
    reflexivity.
Defined.

(** ** Counting the item lines of a report *)

Lemma count_items_single_line (x rest : string) :
  single_line x = true ->
  count_items false (x ++ rest) = count_items false rest.
Proof.
  induction x as [| c x IH]; cbn [append single_line]; intros H.
  - reflexivity.
  - apply andb_true_iff in H. destruct H as [Hc Hx].
    apply negb_true_iff in Hc.
    cbn [count_items andb]. rewrite Hc. apply IH. exact Hx.
Qed.

Lemma prefix_empty (s : string) : prefix "" s = true.
Proof. destruct s; reflexivity. Qed.

Lemma count_items_alternative_line (alt : string * float) (rest : string) :
  single_line (fst alt) = true ->
  count_items true (alternative_line alt ++ String "010" rest)
  = S (count_items true rest).
Proof.
  destruct alt as [lang conf]. cbn [fst]. intros Hlang.
  unfold alternative_line. rewrite !string_app_assoc. cbn.
  rewrite prefix_empty.
  rewrite (count_items_single_line lang _ Hlang). cbn.
  rewrite (count_items_single_line _ _ (format_3f_single_line conf)).
  reflexivity.
Qed.

Lemma count_items_alternatives
    (alts : list (string * float)) (rest : string) :
  Forall (fun alt => single_line (fst alt) = true) alts ->
  count_items true
    (concat LF (map alternative_line alts) ++ String "010" rest)
  = (List.length alts + count_items true rest)%nat.
Proof.
  induction alts as [| alt alts IH]; intros Hall.
  - reflexivity.
  - inversion Hall as [| ? ? Halt Htail]; subst.
    destruct alts as [| alt' alts].
    + cbn [map concat List.length].
      apply count_items_alternative_line. exact Halt.
    + specialize (IH Htail).
      remember (alt' :: alts) as tail eqn:Htl.
      cbn [map List.length].
      assert (Hc : concat LF (alternative_line alt :: map alternative_line tail)
                   = alternative_line alt ++ LF
                     ++ concat LF (map alternative_line tail)).
      { subst tail. reflexivity. }
      rewrite Hc, !string_app_assoc.
      change (LF ++ ?s) with (String "010" s).
      rewrite count_items_alternative_line by exact Halt.
      rewrite IH. reflexivity.
Qed.

(** X7: with codes that hold no line feed, the report has one item line per
    alternative and no other line that looks like one: the number of its
    lines that begin with "  - " is the number of alternatives. *)
Theorem report_item_lines
    (ft_lang : string) (ft_conf : float)
    (ft_alternatives : list (string * float))
    (gcld_lang : string) (gcld_conf : float) (reliable : bool)
    (ld_lang : string) (ld_conf : float) :
  single_line ft_lang = true ->
  single_line gcld_lang = true ->
  single_line ld_lang = true ->
  Forall (fun alt => single_line (fst alt) = true) ft_alternatives ->
  item_count (markdown_result ft_lang ft_conf ft_alternatives
                gcld_lang gcld_conf reliable ld_lang ld_conf)
  = List.length ft_alternatives.
Proof.
  intros Hft Hgcld Hld Halts.
  unfold item_count, markdown_result. cbn.
  rewrite (count_items_single_line ft_lang _ Hft). cbn.
  rewrite (count_items_single_line _ _ (format_3f_single_line ft_conf)). cbn.
  rewrite (count_items_alternatives ft_alternatives _ Halts). cbn.
  rewrite (count_items_single_line gcld_lang _ Hgcld). cbn.
  rewrite (count_items_single_line _ _ (format_3f_single_line gcld_conf)).
  cbn.
  rewrite (count_items_single_line _ _ (str_bool_single_line reliable)).
  cbn.
  rewrite (count_items_single_line ld_lang _ Hld). cbn.
  rewrite (count_items_single_line _ _ (format_3f_single_line ld_conf)).
  cbn. apply Nat.add_0_r.
Qed.

Lemma report_item_lines_witness :
  item_count
    (markdown_result "en" f0_9 [("en", f0_9); ("de", f0_05); ("fr", f0_01)]
       "en" f0_99 true "en" f0_5) = 3%nat.
Proof.
  apply (report_item_lines
           "en" f0_9 [("en", f0_9); ("de", f0_05); ("fr", f0_01)]
           "en" f0_99 true "en" f0_5); try reflexivity.
  repeat constructor.
Defined.

(** ** Printing a confidence of the unit interval *)

Lemma digits2_pos_bound (m : positive) :
  Zpos m < 2 ^ Zpos (digits2_pos m).
Proof.
  induction m as [p IH | p IH |]; cbn [digits2_pos].
  - rewrite Pos2Z.inj_succ, Z.pow_succ_r by lia. lia.
  - rewrite Pos2Z.inj_succ, Z.pow_succ_r by lia. lia.
  - reflexivity.
Qed.

(** The mantissa of a binary64 value has 53 bits at most. *)
Lemma binary64_mantissa (s : bool) (m : positive) (e : Z) :
  binary64 (S754_finite s m e) -> Zpos m < 2 ^ 53.
Proof.
  unfold binary64, valid_binary, bounded, canonical_mantissa, fexp, emin.
  intros H. apply andb_true_iff in H. destruct H as [Hc _].
  apply Z.eqb_eq in Hc.
  pose proof (digits2_pos_bound m) as Hm.
  assert (Hd : Zpos (digits2_pos m) <= 53) by lia.
  apply (Z.lt_le_trans _ _ _ Hm).
  apply Z.pow_le_mono_r; lia.
Qed.

Lemma float_le_one_finite (m : positive) (e : Z) :
  float_le (S754_finite false m e) f1_0 = true ->
  e < -52 \/ (e = -52 /\ (m <= 4503599627370496)%positive).
Proof.
  unfold float_le, SFleb, SFcompare, f1_0.
  destruct (e ?= -52) eqn:Hc; intros H.
  - apply Z.compare_eq in Hc. right. split; [exact Hc |].
    unfold Pos.le, Pos.compare. intros Hgt. rewrite Hgt in H. discriminate H.
  - left. exact Hc.
  - discriminate H.
Qed.

Lemma round_half_even_bounds (n d k : Z) :
  0 < d -> 0 <= n -> n <= k * d ->
  0 <= round_half_even n d <= k.
Proof.
  intros Hd Hn Hk. unfold round_half_even. cbv zeta.
  pose proof (Z.div_mod n d ltac:(lia)) as Hdiv.
  pose proof (Z.mod_pos_bound n d Hd) as Hmod.
  pose proof (Z.div_pos n d Hn Hd) as Hq.
  assert (Hqk : n / d <= k) by nia.
  assert (Hlt : 0 < n mod d -> n / d < k) by nia.
  destruct (Z.compare_spec (2 * (n mod d)) d) as [Hc | Hc | Hc].
  - destruct (Z.even (n / d)); lia.
  - lia.
  - lia.
Qed.

(** X6: a binary64 confidence of the interval [0.0, 1.0] is printed as a
    decimal from 0.000 to 1.000: the digit 0 and three fractional digits, or
    1.000. *)
Theorem unit_interval_prints_0_to_1 (x : float) :
  binary64 x -> in_unit_interval x ->
  exists s whole n,
    format_3f x = sign s ++ whole ++ "." ++ fraction3 n /\
    0 <= n <= 1000 /\
    ((whole = "0" /\ n < 1000) \/ (whole = "1" /\ n = 1000)).
Proof.
  intros Hvalid [Hlo Hhi].
  destruct x as [s | s | | s m e].
  - exists s, "0", 0. split; [reflexivity |].
    split; [lia | left; split; [reflexivity | lia]].
  - destruct s; [discriminate Hlo | discriminate Hhi].
  - discriminate Hlo.
  - destruct s; [discriminate Hlo |].
    pose proof (binary64_mantissa false m e Hvalid) as Hm.
    assert (He : e < 0 /\ Zpos m <= 2 ^ (- e)).
    { destruct (float_le_one_finite m e Hhi) as [Hlt | [-> Hle]].
      - split; [lia |].
        assert (Hpow : 2 ^ 53 <= 2 ^ (- e))
          by (apply Z.pow_le_mono_r; lia).
        lia.
      - split; [reflexivity |].
        exact (Pos2Z.pos_le_pos _ _ Hle). }
    destruct He as [He Hle].
    assert (Hd : 0 < 2 ^ (- e)) by (apply Z.pow_pos_nonneg; lia).
    assert (Hn : 0 <= thousandths m e <= 1000).
    { unfold thousandths.
      destruct (0 <=? e) eqn:Hs; [apply Z.leb_le in Hs; lia |].
      apply round_half_even_bounds; lia. }
    exists false, (decimal (thousandths m e / 1000)), (thousandths m e).
    split; [reflexivity |]. split; [exact Hn |].
    destruct (Z.eq_dec (thousandths m e) 1000) as [Heq | Hneq].
    + right. rewrite Heq. split; reflexivity.
    + left. rewrite Z.div_small by lia. split; [reflexivity | lia].
Qed.

Lemma unit_interval_prints_0_to_1_witness :
  exists s whole n,
    format_3f f0_9 = sign s ++ whole ++ "." ++ fraction3 n /\
    0 <= n <= 1000 /\
    ((whole = "0" /\ n < 1000) \/ (whole = "1" /\ n = 1000)).
Proof.
  apply (unit_interval_prints_0_to_1 f0_9).
  - reflexivity.
  - split; reflexivity.
Defined.
